(** * The student object model of [project.cpp]

    A shallow embedding of the classes of [project.cpp] (the [Student]
    hierarchy with its decorators, the factory, the builder and the
    [University] singleton) over an explicit store, and the properties of
    clone, delegation, construction and the registry.

    Objects managed through [std::shared_ptr] live in a finite map from
    locations to objects, so two pointers to one object are one location.
    [std::vector<std::shared_ptr<Student>>] objects and builders have a
    store of their own kind each: a vector that is copied gets a new
    location, a vector that is pushed to keeps its location. *)

From stdpp Require Import base option list strings gmap fin_maps.

(** ** Data model *)

Abbreviation loc := positive.

(** [std::shared_ptr<Student>]: [None] is the null pointer. *)
Abbreviation shared_ptr := (option loc).

(** The three concrete classes below the abstract [Student]; the members
    are those of the C++ classes ([baseStudent] is inherited by
    [TutoringSupportDecorator] from [StudentDecorator]). *)
Inductive Student : Type :=
  | BasicStudent (categories : list string) (testToSkipLevels : bool)
  | StudentDecorator (baseStudent : shared_ptr)
  | TutoringSupportDecorator (baseStudent : shared_ptr).

(** [BasicStudentBuilder], with the default member initialisers
    (an empty vector and [false]) given by [BasicStudentBuilder_default]. *)
Record BasicStudentBuilder : Type := mkBuilder {
  categories : list string;
  testToSkipLevels : bool
}.

Definition BasicStudentBuilder_default : BasicStudentBuilder :=
  {| categories := []; testToSkipLevels := false |}.

(** The program state.  [instance] is the function-local static of
    [University::getInstance]: [None] until the first call, afterwards the
    location (in [vectors]) of the member [students] of the one
    [University] object. *)
Record State : Type := mkState {
  objects : gmap loc Student;
  vectors : gmap loc (list shared_ptr);
  builders : gmap loc BasicStudentBuilder;
  instance : option loc
}.

Definition empty_state : State :=
  {| objects := ∅; vectors := ∅; builders := ∅; instance := None |}.

Definition set_objects (f : gmap loc Student → gmap loc Student) (s : State) : State :=
  {| objects := f (objects s); vectors := vectors s;
     builders := builders s; instance := instance s |}.

Definition set_vectors (f : gmap loc (list shared_ptr) → gmap loc (list shared_ptr))
    (s : State) : State :=
  {| objects := objects s; vectors := f (vectors s);
     builders := builders s; instance := instance s |}.

Definition set_builders (f : gmap loc BasicStudentBuilder → gmap loc BasicStudentBuilder)
    (s : State) : State :=
  {| objects := objects s; vectors := vectors s;
     builders := f (builders s); instance := instance s |}.

Definition set_instance (i : option loc) (s : State) : State :=
  {| objects := objects s; vectors := vectors s;
     builders := builders s; instance := i |}.

(** ** Computations over the state

    A call either returns a value and the next state, or has no defined
    result ([None]): a null or unallocated pointer is dereferenced, or the
    recursion bound of a virtual call through a delegation chain is used
    up. *)

Definition M (A : Type) : Type := State → option (A * State).

(** [M] is a monad; stdpp's [x ← m; k] and [mret] are used for it as
    they are for [option]. *)
#[global] Instance M_ret : MRet M := λ A x s, Some (x, s).

#[global] Instance M_bind : MBind M :=
  λ A B k m s, match m s with
               | Some (x, s') => k x s'
               | None => None
               end.

(** [std::make_shared<T>(args)]: a new object at an unused location. *)
Definition make_shared (o : Student) : M shared_ptr :=
  λ s, let l := fresh (dom (objects s)) in
       Some (Some l, set_objects (insert l o) s).

(** ** The virtual member functions of [Student]

    The receiver is the pointer the call goes through.  The [const]
    members read the object store only.  [fuel] bounds the number of
    objects visited along the [baseStudent] links. *)

Fixpoint canTakeCourse (fuel : nat) (h : gmap loc Student) (this : shared_ptr)
    (course : string) : option bool :=
  match fuel with
  | 0 => None
  | S fuel =>
      l ← this; o ← h !! l;
      match o with
      | BasicStudent _ _ => Some true
      | StudentDecorator baseStudent => canTakeCourse fuel h baseStudent course
      | TutoringSupportDecorator _ => Some true
      end
  end.

Fixpoint hasTestToSkipLevels (fuel : nat) (h : gmap loc Student) (this : shared_ptr)
    : option bool :=
  match fuel with
  | 0 => None
  | S fuel =>
      l ← this; o ← h !! l;
      match o with
      | BasicStudent _ testToSkipLevels => Some testToSkipLevels
      | StudentDecorator baseStudent
      | TutoringSupportDecorator baseStudent => hasTestToSkipLevels fuel h baseStudent
      end
  end.

Fixpoint getCategories (fuel : nat) (h : gmap loc Student) (this : shared_ptr)
    : option (list string) :=
  match fuel with
  | 0 => None
  | S fuel =>
      l ← this; o ← h !! l;
      match o with
      | BasicStudent categories _ => Some categories
      | StudentDecorator baseStudent
      | TutoringSupportDecorator baseStudent => getCategories fuel h baseStudent
      end
  end.

(** [clone]: [BasicStudent] copy-constructs itself into a new shared
    object; both decorators run [StudentDecorator::clone], which returns
    [baseStudent->clone()]. *)
Fixpoint clone (fuel : nat) (this : shared_ptr) : M shared_ptr :=
  λ s,
  match fuel with
  | 0 => None
  | S fuel =>
      l ← this; o ← objects s !! l;
      match o with
      | BasicStudent categories testToSkipLevels =>
          make_shared (BasicStudent categories testToSkipLevels) s
      | StudentDecorator baseStudent
      | TutoringSupportDecorator baseStudent => clone fuel baseStudent s
      end
  end.

(** ** Factory *)

(** [BasicStudentFactory::createStudent]; the factory has no members. *)
Definition createStudent (categories : list string) (testToSkipLevels : bool)
    : M shared_ptr :=
  make_shared (BasicStudent categories testToSkipLevels).

(** ** Builder *)

(** [BasicStudentBuilder b;]: a builder object with the default members. *)
Definition new_BasicStudentBuilder : M loc :=
  λ s, let b := fresh (dom (builders s)) in
       Some (b, set_builders (insert b BasicStudentBuilder_default) s).

(** The setters assign one member and return [*this]. *)
Definition setCategories (this : loc) (cats : list string) : M loc :=
  λ s, b ← builders s !! this;
       Some (this, set_builders
               (insert this {| categories := cats;
                               testToSkipLevels := testToSkipLevels b |}) s).

Definition setTestToSkipLevels (this : loc) (t : bool) : M loc :=
  λ s, b ← builders s !! this;
       Some (this, set_builders
               (insert this {| categories := categories b;
                               testToSkipLevels := t |}) s).

Definition build (this : loc) : M shared_ptr :=
  λ s, b ← builders s !! this;
       make_shared (BasicStudent (categories b) (testToSkipLevels b)) s.

(** ** The [University] singleton *)

(** [University::getInstance]: the first call constructs the object
    (its [students] vector is empty); every call returns a reference to
    it, here the location of its [students] member. *)
Definition getInstance : M loc :=
  λ s, match instance s with
       | Some u => Some (u, s)
       | None =>
           let u := fresh (dom (vectors s)) in
           Some (u, set_instance (Some u) (set_vectors (insert u []) s))
       end.

(** [students.push_back(student)]. *)
Definition addStudent (this : loc) (student : shared_ptr) : M unit :=
  λ s, v ← vectors s !! this;
       Some (tt, set_vectors (insert this (v ++ [student])) s).

(** [getStudents] returns [students] by value: the caller receives a
    vector object of its own, copy-constructed from the member. *)
Definition getStudents (this : loc) : M loc :=
  λ s, v ← vectors s !! this;
       let r := fresh (dom (vectors s)) in
       Some (r, set_vectors (insert r v) s).

(** [University::getInstance().addStudent(student)], as [main] writes it. *)
Definition register (student : shared_ptr) : M unit :=
  u ← getInstance; addStudent u student.

(** [University::getInstance().getStudents()]. *)
Definition listStudents : M loc :=
  u ← getInstance; getStudents u.

(** Reading a [const] member through the state, and the elements of a
    vector object. *)
Definition const_call {A} (f : gmap loc Student → option A) : M A :=
  λ s, x ← f (objects s); Some (x, s).

Definition elements_of (v : loc) : M (list shared_ptr) :=
  λ s, x ← vectors s !! v; Some (x, s).

(** The run of [main]; the lines written to [std::cout] are not part of
    the state, the result is the two values [main] prints: the number of
    registered students and the answer of [canTakeCourse]. *)
Definition main (fuel : nat) : M (nat * bool) :=
  student1 ← createStudent ["Math"; "Physics"]%string true;
  tutoredStudent1 ← make_shared (TutoringSupportDecorator student1);
  _ ← register tutoredStudent1;
  v ← listStudents;
  l ← elements_of v;
  b ← const_call (λ h, canTakeCourse fuel h tutoredStudent1
                         "Advanced Quantum Mechanics"%string);
  mret (length l, b).

(** ** Delegation chains

    [delegates h p n li]: starting at pointer [p], [n] decorator layers
    are passed along the [baseStudent] links before the [BasicStudent] at
    [li] is reached. *)
Inductive delegates (h : gmap loc Student) : shared_ptr → nat → loc → Prop :=
  | delegates_basic l c t :
      h !! l = Some (BasicStudent c t) →
      delegates h (Some l) 0 l
  | delegates_decorator l b n li :
      h !! l = Some (StudentDecorator b) →
      delegates h b n li →
      delegates h (Some l) (S n) li
  | delegates_tutoring l b n li :
      h !! l = Some (TutoringSupportDecorator b) →
      delegates h b n li →
      delegates h (Some l) (S n) li.

(** ** Sequences of registry operations *)

Inductive registry_op : Type :=
  | AddStudent (student : shared_ptr)
  | GetStudents.

Definition run_op (o : registry_op) : M unit :=
  match o with
  | AddStudent student => register student
  | GetStudents => _ ← listStudents; mret tt
  end.

Fixpoint run_ops (ops : list registry_op) : M unit :=
  match ops with
  | [] => mret tt
  | o :: ops => _ ← run_op o; run_ops ops
  end.

(** The students pushed by a sequence of operations, in order. *)
Definition added (ops : list registry_op) : list shared_ptr :=
  flat_map (λ o, match o with AddStudent p => [p] | GetStudents => [] end) ops.

(** The collection a call of [getInstance().getStudents()] would copy in
    state [s]: empty when the singleton is still to be constructed. *)
Definition students_now (s : State) : option (list shared_ptr) :=
  match instance s with
  | None => Some []
  | Some u => vectors s !! u
  end.

(** A location [v] of the vector store that is in use and is not the
    singleton's [students] member. *)
Definition foreign_vector (s : State) (v : loc) : Prop :=
  is_Some (vectors s !! v) ∧ instance s ≠ Some v.

(** ** Decorator construction

    [std::make_shared<StudentDecorator>(baseStudent)] and
    [std::make_shared<TutoringSupportDecorator>(baseStudent)]: the
    constructors store the pointer they are given, null or not. *)
Definition new_StudentDecorator (baseStudent : shared_ptr) : M shared_ptr :=
  make_shared (StudentDecorator baseStudent).

Definition new_TutoringSupportDecorator (baseStudent : shared_ptr) : M shared_ptr :=
  make_shared (TutoringSupportDecorator baseStudent).

(** [ends_in_null h p]: the [baseStudent] links from [p] lead, through
    decorators only, to a null pointer. *)
Inductive ends_in_null (h : gmap loc Student) : shared_ptr → Prop :=
  | ends_in_null_here : ends_in_null h None
  | ends_in_null_decorator l b :
      h !! l = Some (StudentDecorator b) →
      ends_in_null h b →
      ends_in_null h (Some l)
  | ends_in_null_tutoring l b :
      h !! l = Some (TutoringSupportDecorator b) →
      ends_in_null h b →
      ends_in_null h (Some l).

(** ** Sequences of calls of any member function

    One constructor per function of the file that changes the state, with
    its arguments; the value a call returns is dropped. *)
Inductive api_call : Type :=
  | CreateStudent (cats : list string) (t : bool)
  | NewStudentDecorator (baseStudent : shared_ptr)
  | NewTutoringSupportDecorator (baseStudent : shared_ptr)
  | Clone (fuel : nat) (this : shared_ptr)
  | NewBuilder
  | SetCategories (this : loc) (cats : list string)
  | SetTestToSkipLevels (this : loc) (t : bool)
  | Build (this : loc)
  | Register (student : shared_ptr)
  | ListStudents.

Definition run_call (c : api_call) : M unit :=
  match c with
  | CreateStudent cats t => _ ← createStudent cats t; mret tt
  | NewStudentDecorator b => _ ← new_StudentDecorator b; mret tt
  | NewTutoringSupportDecorator b => _ ← new_TutoringSupportDecorator b; mret tt
  | Clone fuel this => _ ← clone fuel this; mret tt
  | NewBuilder => _ ← new_BasicStudentBuilder; mret tt
  | SetCategories this cats => _ ← setCategories this cats; mret tt
  | SetTestToSkipLevels this t => _ ← setTestToSkipLevels this t; mret tt
  | Build this => _ ← build this; mret tt
  | Register student => register student
  | ListStudents => _ ← listStudents; mret tt
  end.

Fixpoint run_calls (cs : list api_call) : M unit :=
  match cs with
  | [] => mret tt
  | c :: cs => _ ← run_call c; run_calls cs
  end.

(** The students a sequence of calls registers, in order. *)
Definition registered (cs : list api_call) : list shared_ptr :=
  flat_map (λ c, match c with Register p => [p] | _ => [] end) cs.

(** The calls that go through [University::getInstance()]. *)
Definition registry_call (c : api_call) : bool :=
  match c with
  | Register _ | ListStudents => true
  | _ => false
  end.

(** ** Sample states

    [chain_state]: a [BasicStudent] at 1 under three decorator layers
    (2 wraps 1, 3 wraps 2, 4 wraps 3), and a [TutoringSupportDecorator]
    at 5 that was constructed over a null pointer. *)
Definition chain_objects : gmap loc Student :=
  <[1%positive := BasicStudent ["Math"; "Physics"]%string true]>
  (<[2%positive := TutoringSupportDecorator (Some 1%positive)]>
  (<[3%positive := StudentDecorator (Some 2%positive)]>
  (<[4%positive := TutoringSupportDecorator (Some 3%positive)]>
  (<[5%positive := TutoringSupportDecorator None]> ∅)))).

Definition chain_state : State :=
  {| objects := chain_objects; vectors := ∅; builders := ∅; instance := None |}.

(** [registry_state]: the objects of [chain_state], the singleton
    constructed with its [students] at 1 holding two pointers, and one
    builder at 1 on which [setTestToSkipLevels(true)] was called. *)
Definition registry_state : State :=
  {| objects := chain_objects;
     vectors := <[1%positive := [Some 2%positive; Some 4%positive]]> ∅;
     builders := <[1%positive := {| categories := ["Art"%string];
                                    testToSkipLevels := true |}]> ∅;
     instance := Some 1%positive |}.

(** [snapshot_state]: as [registry_state] without the builder, and with
    a second vector at 2, returned by [getStudents()] when the collection
    held its first element only. *)
Definition snapshot_state : State :=
  {| objects := chain_objects;
     vectors := <[1%positive := [Some 2%positive; Some 4%positive]]>
                (<[2%positive := [Some 2%positive]]> ∅);
     builders := ∅;
     instance := Some 1%positive |}.

(** A sequence with one call of each kind, for the examples. *)
Definition sample_calls : list api_call :=
  [ CreateStudent ["Art"%string] false;
    NewBuilder;
    SetCategories 1 ["Math"%string];
    SetTestToSkipLevels 1 true;
    Build 1;
    NewStudentDecorator (Some 4%positive);
    NewTutoringSupportDecorator None;
    Clone 4 (Some 4%positive);
    Register (Some 2%positive);
    ListStudents;
    Register None ].

(** * Properties *)

Example main_run : (main 1 empty_state ≫= (λ r, Some r.1)) = Some (1, true).
Proof. vm_compute. reflexivity. Qed.

(** ** Virtual calls along a delegation chain *)

Section Delegation.
Variable h : gmap loc Student.

Lemma delegates_innermost p n li :
  delegates h p n li → ∃ c t, h !! li = Some (BasicStudent c t).
Proof. induction 1; eauto. Qed.

Lemma getCategories_delegates p n li c t fuel :
  delegates h p n li → h !! li = Some (BasicStudent c t) → n < fuel →
  getCategories fuel h p = Some c.
Proof.
  intros Hd. revert fuel.
  induction Hd as [l c' t' Hl|l b n li Hl Hd IH|l b n li Hl Hd IH];
    intros [|fuel] Hli Hlt; try lia; simpl; rewrite Hl; simpl.
  - congruence.
  - apply IH; [done|lia].
  - apply IH; [done|lia].
Qed.

Lemma hasTestToSkipLevels_delegates p n li c t fuel :
  delegates h p n li → h !! li = Some (BasicStudent c t) → n < fuel →
  hasTestToSkipLevels fuel h p = Some t.
Proof.
  intros Hd. revert fuel.
  induction Hd as [l c' t' Hl|l b n li Hl Hd IH|l b n li Hl Hd IH];
    intros [|fuel] Hli Hlt; try lia; simpl; rewrite Hl; simpl.
  - congruence.
  - apply IH; [done|lia].
  - apply IH; [done|lia].
Qed.

Lemma canTakeCourse_delegates p n li course fuel :
  delegates h p n li → n < fuel →
  canTakeCourse fuel h p course = Some true.
Proof.
  intros Hd. revert fuel.
  induction Hd as [l c' t' Hl|l b n li Hl Hd IH|l b n li Hl Hd IH];
    intros [|fuel] Hlt; try lia; simpl; rewrite Hl; simpl; try done.
  apply IH. lia.
Qed.
End Delegation.

Lemma clone_delegates s p n li c t fuel :
  delegates (objects s) p n li →
  objects s !! li = Some (BasicStudent c t) → n < fuel →
  clone fuel p s = make_shared (BasicStudent c t) s.
Proof.
  intros Hd. revert fuel.
  induction Hd as [l c' t' Hl|l b n li Hl Hd IH|l b n li Hl Hd IH];
    intros [|fuel] Hli Hlt; try lia; simpl; rewrite Hl; simpl.
  - congruence.
  - apply IH; [done|lia].
  - apply IH; [done|lia].
Qed.

Lemma getCategories_basic (h : gmap loc Student) l c t fuel :
  h !! l = Some (BasicStudent c t) →
  getCategories (S fuel) h (Some l) = Some c.
Proof. intros Hl. simpl. by rewrite Hl. Qed.

Lemma hasTestToSkipLevels_basic (h : gmap loc Student) l c t fuel :
  h !! l = Some (BasicStudent c t) →
  hasTestToSkipLevels (S fuel) h (Some l) = Some t.
Proof. intros Hl. simpl. by rewrite Hl. Qed.

(** What [make_shared] returns: a location that was not in use, holding
    the object, every other location as before. *)
Lemma make_shared_spec o s :
  ∃ l, make_shared o s = Some (Some l, set_objects (insert l o) s)
       ∧ objects s !! l = None
       ∧ objects (set_objects (insert l o) s) !! l = Some o
       ∧ ∀ l', is_Some (objects s !! l') →
           l' ≠ l ∧ objects (set_objects (insert l o) s) !! l' = objects s !! l'.
Proof.
  exists (fresh (dom (objects s))).
  assert (Hf : objects s !! fresh (dom (objects s)) = None).
  { apply not_elem_of_dom, is_fresh. }
  split_and!; [done|done|by simpl; rewrite lookup_insert_eq|].
  intros l' [o' Ho']. assert (l' ≠ fresh (dom (objects s))) by congruence.
  split; [done|]. simpl. by rewrite lookup_insert_ne.
Qed.

Lemma canTakeCourse_course_irrelevant fuel h p c1 c2 :
  canTakeCourse fuel h p c1 = canTakeCourse fuel h p c2.
Proof.
  revert p. induction fuel as [|fuel IH]; intros p; [done|].
  simpl. destruct p as [l|]; [|done]. simpl.
  destruct (h !! l) as [[]|]; simpl; auto.
Qed.

(** ** Decorators *)

(** C1. When a [StudentDecorator] or a [TutoringSupportDecorator] wraps a
    student, [clone()] on the decorator is the wrapped student's
    [clone()]: it returns a new [BasicStudent], not a decorator, whose
    categories and flag are those the wrapped student reports. *)
Theorem decorator_clone_undecorated s l b n li fuel :
  objects s !! l = Some (StudentDecorator b)
    ∨ objects s !! l = Some (TutoringSupportDecorator b) →
  delegates (objects s) b n li →
  n < fuel →
  clone (S fuel) (Some l) s = clone fuel b s
  ∧ ∃ l' c t s',
      clone (S fuel) (Some l) s = Some (Some l', s')
      ∧ objects s !! l' = None
      ∧ objects s' !! l' = Some (BasicStudent c t)
      ∧ getCategories fuel (objects s) b = Some c
      ∧ hasTestToSkipLevels fuel (objects s) b = Some t.
Proof.
  intros Hl Hd Hlt.
  assert (Hstep : clone (S fuel) (Some l) s = clone fuel b s).
  { simpl. destruct Hl as [-> | ->]; reflexivity. }
  split; [exact Hstep|].
  destruct (delegates_innermost _ _ _ _ Hd) as (c & t & Hli).
  destruct (make_shared_spec (BasicStudent c t) s) as (l' & Hm & Hnew & Hat & _).
  exists l', c, t, (set_objects (insert l' (BasicStudent c t)) s).
  rewrite Hstep, (clone_delegates s b n li c t fuel Hd Hli Hlt).
  split_and!; try done.
  - eapply getCategories_delegates; eauto.
  - eapply hasTestToSkipLevels_delegates; eauto.
Qed.

Lemma decorator_clone_undecorated_witness :
  clone 2 (Some 2%positive) chain_state = clone 1 (Some 1%positive) chain_state
  ∧ ∃ l' c t s',
      clone 2 (Some 2%positive) chain_state = Some (Some l', s')
      ∧ objects chain_state !! l' = None
      ∧ objects s' !! l' = Some (BasicStudent c t)
      ∧ getCategories 1 (objects chain_state) (Some 1%positive) = Some c
      ∧ hasTestToSkipLevels 1 (objects chain_state) (Some 1%positive) = Some t.
Proof.
  apply (decorator_clone_undecorated chain_state 2 (Some 1%positive) 0 1 1).
  - right. reflexivity.
  - apply (delegates_basic _ 1 ["Math"; "Physics"]%string true). reflexivity.
  - lia.
Defined.

(** C9. Along a delegation chain of any depth, made of [StudentDecorator]
    and [TutoringSupportDecorator] layers over an innermost
    [BasicStudent], [clone()] on the outermost pointer is [clone()] of the
    innermost [BasicStudent]: one new [BasicStudent] with the innermost
    object's members, and no layer of the chain. *)
Theorem clone_strips_every_layer s p n li fuel :
  delegates (objects s) p n li →
  n < fuel →
  clone fuel p s = clone 1 (Some li) s
  ∧ ∃ c t l',
      objects s !! li = Some (BasicStudent c t)
      ∧ objects s !! l' = None
      ∧ clone fuel p s
        = Some (Some l', set_objects (insert l' (BasicStudent c t)) s).
Proof.
  intros Hd Hlt.
  destruct (delegates_innermost _ _ _ _ Hd) as (c & t & Hli).
  destruct (make_shared_spec (BasicStudent c t) s) as (l' & Hm & Hnew & _).
  rewrite (clone_delegates s p n li c t fuel Hd Hli Hlt).
  split.
  - simpl. rewrite Hli. reflexivity.
  - exists c, t, l'. done.
Qed.

Lemma clone_strips_every_layer_witness :
  clone 4 (Some 4%positive) chain_state = clone 1 (Some 1%positive) chain_state
  ∧ ∃ c t l',
      objects chain_state !! 1%positive = Some (BasicStudent c t)
      ∧ objects chain_state !! l' = None
      ∧ clone 4 (Some 4%positive) chain_state
        = Some (Some l', set_objects (insert l' (BasicStudent c t)) chain_state).
Proof.
  apply (clone_strips_every_layer chain_state (Some 4%positive) 3 1 4).
  - apply (delegates_tutoring _ 4 (Some 3%positive)); [reflexivity|].
    apply (delegates_decorator _ 3 (Some 2%positive)); [reflexivity|].
    apply (delegates_tutoring _ 2 (Some 1%positive)); [reflexivity|].
    apply (delegates_basic _ 1 ["Math"; "Physics"]%string true). reflexivity.
  - lia.
Defined.

(** C2. [canTakeCourse] called on a [TutoringSupportDecorator] returns
    [true] for every course name, the empty one included, whatever object
    (or none) it wraps. *)
Theorem tutoring_canTakeCourse_true (h : gmap loc Student) l b course fuel :
  h !! l = Some (TutoringSupportDecorator b) →
  canTakeCourse (S fuel) h (Some l) course = Some true.
Proof. intros Hl. simpl. rewrite Hl. reflexivity. Qed.

Lemma tutoring_canTakeCourse_true_witness :
  canTakeCourse 1 chain_objects None ""%string = None
  ∧ canTakeCourse 1 chain_objects (Some 5%positive) ""%string = Some true.
Proof.
  split; [reflexivity|].
  apply (tutoring_canTakeCourse_true chain_objects 5 None ""%string 0).
  reflexivity.
Defined.

(** C3. A [TutoringSupportDecorator] over a student answers
    [getCategories()] and [hasTestToSkipLevels()] as the wrapped student
    does. *)
Theorem tutoring_passes_through (h : gmap loc Student) l b n li fuel fuel' :
  h !! l = Some (TutoringSupportDecorator b) →
  delegates h b n li →
  n < fuel → S n < fuel' →
  getCategories fuel' h (Some l) = getCategories fuel h b
  ∧ hasTestToSkipLevels fuel' h (Some l) = hasTestToSkipLevels fuel h b
  ∧ is_Some (getCategories fuel h b)
  ∧ is_Some (hasTestToSkipLevels fuel h b).
Proof.
  intros Hl Hd Hlt Hlt'.
  destruct (delegates_innermost _ _ _ _ Hd) as (c & t & Hli).
  pose proof (delegates_tutoring h l b n li Hl Hd) as Hd'.
  rewrite (getCategories_delegates h _ _ _ c t fuel' Hd' Hli Hlt').
  rewrite (getCategories_delegates h _ _ _ c t fuel Hd Hli Hlt).
  rewrite (hasTestToSkipLevels_delegates h _ _ _ c t fuel' Hd' Hli Hlt').
  rewrite (hasTestToSkipLevels_delegates h _ _ _ c t fuel Hd Hli Hlt).
  split_and!; eauto.
Qed.

Lemma tutoring_passes_through_witness :
  getCategories 2 chain_objects (Some 2%positive)
    = getCategories 1 chain_objects (Some 1%positive)
  ∧ hasTestToSkipLevels 2 chain_objects (Some 2%positive)
    = hasTestToSkipLevels 1 chain_objects (Some 1%positive)
  ∧ is_Some (getCategories 1 chain_objects (Some 1%positive))
  ∧ is_Some (hasTestToSkipLevels 1 chain_objects (Some 1%positive)).
Proof.
  apply (tutoring_passes_through chain_objects 2 (Some 1%positive) 0 1 1 2).
  - reflexivity.
  - apply (delegates_basic _ 1 ["Math"; "Physics"]%string true). reflexivity.
  - lia.
  - lia.
Defined.

(** C10. For a student built from [BasicStudent], [StudentDecorator] and
    [TutoringSupportDecorator] layers, [canTakeCourse] has a result, and
    the same one for any two course names. *)
Theorem canTakeCourse_noninterference (h : gmap loc Student) p n li fuel c1 c2 :
  delegates h p n li →
  n < fuel →
  canTakeCourse fuel h p c1 = canTakeCourse fuel h p c2
  ∧ is_Some (canTakeCourse fuel h p c1).
Proof.
  intros Hd Hlt. split; [apply canTakeCourse_course_irrelevant|].
  rewrite (canTakeCourse_delegates h p n li c1 fuel Hd Hlt). eauto.
Qed.

Lemma canTakeCourse_noninterference_witness :
  canTakeCourse 3 chain_objects (Some 3%positive) "Algebra"%string
    = canTakeCourse 3 chain_objects (Some 3%positive) ""%string
  ∧ is_Some (canTakeCourse 3 chain_objects (Some 3%positive) "Algebra"%string).
Proof.
  apply (canTakeCourse_noninterference chain_objects (Some 3%positive) 2 1 3).
  - apply (delegates_decorator _ 3 (Some 2%positive)); [reflexivity|].
    apply (delegates_tutoring _ 2 (Some 1%positive)); [reflexivity|].
    apply (delegates_basic _ 1 ["Math"; "Physics"]%string true). reflexivity.
  - lia.
Defined.

(** ** The registry *)

Lemma getInstance_spec s x :
  students_now s = Some x →
  ∃ u s', getInstance s = Some (u, s')
          ∧ instance s' = Some u
          ∧ vectors s' !! u = Some x
          ∧ objects s' = objects s
          ∧ builders s' = builders s
          ∧ (∀ u0, instance s = Some u0 → u0 = u)
          ∧ (∀ v, foreign_vector s v →
               vectors s' !! v = vectors s !! v ∧ u ≠ v).
Proof.
  unfold students_now, getInstance, foreign_vector.
  destruct (instance s) as [u|] eqn:Hi; intros Hx.
  - exists u, s. split_and!; try done; [congruence|].
    intros v [_ Hne]. split; congruence.
  - injection Hx as <-.
    set (u := fresh (dom (vectors s))).
    assert (Hu : vectors s !! u = None) by apply not_elem_of_dom, is_fresh.
    eexists u, _. split_and!; try done.
    + simpl. by rewrite lookup_insert_eq.
    + intros v [[y Hy] _]. assert (u ≠ v) by congruence.
      split; [|done]. simpl. by rewrite lookup_insert_ne.
Qed.

Lemma listStudents_spec s x :
  students_now s = Some x →
  ∃ v s', listStudents s = Some (v, s')
          ∧ vectors s !! v = None
          ∧ vectors s' !! v = Some x
          ∧ students_now s' = Some x
          ∧ foreign_vector s' v
          ∧ objects s' = objects s
          ∧ builders s' = builders s
          ∧ (∀ w, foreign_vector s w →
               vectors s' !! w = vectors s !! w ∧ foreign_vector s' w).
Proof.
  intros Hx.
  destruct (getInstance_spec s x Hx) as (u & s0 & Hg & Hi & Hu & Ho & Hb & Hsame & Hfr).
  unfold listStudents, mbind, M_bind. rewrite Hg.
  unfold getStudents. rewrite Hu. simpl.
  set (v := fresh (dom (vectors s0))).
  assert (Hv : vectors s0 !! v = None) by apply not_elem_of_dom, is_fresh.
  assert (Huv : u ≠ v) by congruence.
  eexists v, _. split_and!; try done.
  - destruct (vectors s !! v) as [y|] eqn:Hy; [|done].
    destruct (decide (instance s = Some v)) as [Hiv|Hiv].
    + by specialize (Hsame v Hiv).
    + destruct (Hfr v) as [Hkept _]; [split; eauto|]. congruence.
  - simpl. by rewrite lookup_insert_eq.
  - unfold students_now. simpl. rewrite Hi. by rewrite lookup_insert_ne.
  - split; simpl; [rewrite lookup_insert_eq; eauto|congruence].
  - intros w Hw. destruct (Hfr w Hw) as [Hkept Hne].
    assert (v ≠ w).
    { intros <-. destruct Hw as [[y Hy] _]. congruence. }
    unfold foreign_vector. simpl. rewrite lookup_insert_ne by done.
    rewrite Hkept. split_and!; [done|by destruct Hw|congruence].
Qed.

Lemma register_spec s x p :
  students_now s = Some x →
  ∃ s', register p s = Some (tt, s')
        ∧ students_now s' = Some (x ++ [p])
        ∧ objects s' = objects s
        ∧ builders s' = builders s
        ∧ (∀ w, foreign_vector s w →
             vectors s' !! w = vectors s !! w ∧ foreign_vector s' w).
Proof.
  intros Hx.
  destruct (getInstance_spec s x Hx) as (u & s0 & Hg & Hi & Hu & Ho & Hb & _ & Hfr).
  unfold register, mbind, M_bind. rewrite Hg.
  unfold addStudent. rewrite Hu. simpl.
  eexists. split_and!; try done.
  - unfold students_now. simpl. rewrite Hi. by rewrite lookup_insert_eq.
  - intros w Hw. destruct (Hfr w Hw) as [Hsame Hne].
    unfold foreign_vector. simpl. rewrite lookup_insert_ne by done.
    rewrite Hsame. split_and!; [done|by destruct Hw|congruence].
Qed.

Lemma run_ops_spec ops : ∀ s x,
  students_now s = Some x →
  ∃ s', run_ops ops s = Some (tt, s')
        ∧ students_now s' = Some (x ++ added ops)
        ∧ objects s' = objects s
        ∧ builders s' = builders s
        ∧ (∀ w, foreign_vector s w →
             vectors s' !! w = vectors s !! w ∧ foreign_vector s' w).
Proof.
  induction ops as [|o ops IH]; intros s x Hx.
  - exists s. simpl. rewrite app_nil_r. split_and!; try done.
  - assert (∃ s0, run_op o s = Some (tt, s0)
        ∧ students_now s0 = Some (x ++ added [o])
        ∧ objects s0 = objects s
        ∧ builders s0 = builders s
        ∧ (∀ w, foreign_vector s w →
             vectors s0 !! w = vectors s !! w ∧ foreign_vector s0 w))
      as (s0 & Hr & Hx0 & Ho0 & Hb0 & Hf0).
    { destruct o as [p|]; simpl.
      - apply register_spec, Hx.
      - destruct (listStudents_spec s x Hx)
          as (v & s0 & Hl & _ & _ & Hx0 & _ & Ho & Hb & Hfr).
        exists s0. unfold mbind, M_bind. rewrite Hl. simpl.
        rewrite app_nil_r. done. }
    destruct (IH s0 _ Hx0) as (s' & Hr' & Hx' & Ho' & Hb' & Hf').
    exists s'. split_and!.
    + simpl. unfold mbind, M_bind. rewrite Hr. exact Hr'.
    + rewrite Hx'. f_equal. rewrite <- app_assoc. f_equal.
      simpl. by rewrite app_nil_r.
    + congruence.
    + congruence.
    + intros w Hw. destruct (Hf0 w Hw) as [E0 F0].
      destruct (Hf' w F0) as [E' F']. split; [congruence|done].
Qed.

Lemma added_AddStudent (ps : list shared_ptr) : added (AddStudent <$> ps) = ps.
Proof. induction ps as [|p ps IH]; simpl; [done|f_equal; exact IH]. Qed.

(** C5. [getStudents()] returns a copy of the collection as it is at the
    call, in a vector object of its own; whatever registry operations
    follow ([addStudent] calls, further [getStudents] calls), that vector
    keeps its elements (and so its length), and the objects they point to
    stay as they were, while the registry itself grows by the students
    added. *)
Theorem getStudents_snapshot s x :
  students_now s = Some x →
  ∃ v s1,
    listStudents s = Some (v, s1)
    ∧ vectors s !! v = None
    ∧ vectors s1 !! v = Some x
    ∧ ∀ ops, ∃ s2,
        run_ops ops s1 = Some (tt, s2)
        ∧ vectors s2 !! v = Some x
        ∧ objects s2 = objects s
        ∧ students_now s2 = Some (x ++ added ops).
Proof.
  intros Hx.
  destruct (listStudents_spec s x Hx)
    as (v & s1 & Hl & Hnew & Hv & Hx1 & Hfv & Ho & _ & _).
  exists v, s1. split_and!; try done.
  intros ops.
  destruct (run_ops_spec ops s1 x Hx1) as (s2 & Hr & Hx2 & Ho2 & _ & Hfr).
  exists s2. destruct (Hfr v Hfv) as [Hkept _].
  split_and!; [done|congruence|congruence|done].
Qed.

Lemma getStudents_snapshot_witness :
  students_now registry_state = Some [Some 2%positive; Some 4%positive]
  ∧ ∃ v s1,
      listStudents registry_state = Some (v, s1)
      ∧ vectors registry_state !! v = None
      ∧ vectors s1 !! v = Some [Some 2%positive; Some 4%positive]
      ∧ ∀ ops, ∃ s2,
          run_ops ops s1 = Some (tt, s2)
          ∧ vectors s2 !! v = Some [Some 2%positive; Some 4%positive]
          ∧ objects s2 = objects registry_state
          ∧ students_now s2
            = Some ([Some 2%positive; Some 4%positive] ++ added ops).
Proof.
  split; [reflexivity|].
  apply (getStudents_snapshot registry_state [Some 2%positive; Some 4%positive]).
  reflexivity.
Defined.

(** C6. Starting from an empty registry, after [addStudent] was called
    for each pointer of a list [ps] in turn, [getStudents()] returns
    exactly [ps]: as many elements as calls, in the order of the calls.
    Nothing is dropped or merged, so this holds for distinct students and
    also when a pointer is added twice. *)
Theorem registry_insertion_order s (ps : list shared_ptr) :
  students_now s = Some [] →
  ∃ s1 v s2,
    run_ops (AddStudent <$> ps) s = Some (tt, s1)
    ∧ listStudents s1 = Some (v, s2)
    ∧ vectors s2 !! v = Some ps
    ∧ length <$> vectors s2 !! v = Some (length ps).
Proof.
  intros Hx.
  destruct (run_ops_spec (AddStudent <$> ps) s [] Hx) as (s1 & Hr & Hx1 & _).
  rewrite added_AddStudent in Hx1. simpl in Hx1.
  destruct (listStudents_spec s1 ps Hx1) as (v & s2 & Hl & _ & Hv & _).
  exists s1, v, s2. split_and!; try done. by rewrite Hv.
Qed.

Lemma registry_insertion_order_witness :
  students_now chain_state = Some []
  ∧ ∃ s1 v s2,
      run_ops (AddStudent <$> [Some 2%positive; Some 4%positive; Some 2%positive])
        chain_state = Some (tt, s1)
      ∧ listStudents s1 = Some (v, s2)
      ∧ vectors s2 !! v = Some [Some 2%positive; Some 4%positive; Some 2%positive]
      ∧ length <$> vectors s2 !! v = Some 3.
Proof.
  split; [reflexivity|].
  apply (registry_insertion_order chain_state
           [Some 2%positive; Some 4%positive; Some 2%positive]).
  reflexivity.
Defined.

(** ** Construction *)

(** C4. For every list of categories (empty, with repetitions, in any
    order) and every flag, [createStudent] returns a pointer to a new
    [BasicStudent] for which [getCategories()] is that list and
    [hasTestToSkipLevels()] is that flag. *)
Theorem createStudent_round_trip s (C : list string) (F : bool) fuel :
  ∃ l s',
    createStudent C F s = Some (Some l, s')
    ∧ objects s !! l = None
    ∧ objects s' !! l = Some (BasicStudent C F)
    ∧ getCategories (S fuel) (objects s') (Some l) = Some C
    ∧ hasTestToSkipLevels (S fuel) (objects s') (Some l) = Some F.
Proof.
  destruct (make_shared_spec (BasicStudent C F) s) as (l & Hm & Hnew & Hat & _).
  exists l, (set_objects (insert l (BasicStudent C F)) s).
  unfold createStudent. split_and!; try done.
  - by apply getCategories_basic with F.
  - by apply hasTestToSkipLevels_basic with C.
Qed.

(** C8. [clone()] on a [BasicStudent] returns a pointer to a new object,
    at a location of its own, with the same categories and the same flag;
    the original reads as before, and it still does after the clone's
    object is overwritten with any object whatever. *)
Theorem clone_independent s l c t fuel :
  objects s !! l = Some (BasicStudent c t) →
  ∃ l' s',
    clone (S fuel) (Some l) s = Some (Some l', s')
    ∧ l' ≠ l
    ∧ objects s !! l' = None
    ∧ getCategories (S fuel) (objects s') (Some l') = Some c
    ∧ hasTestToSkipLevels (S fuel) (objects s') (Some l') = Some t
    ∧ getCategories (S fuel) (objects s') (Some l) = Some c
    ∧ hasTestToSkipLevels (S fuel) (objects s') (Some l) = Some t
    ∧ ∀ o,
        getCategories (S fuel) (<[l' := o]> (objects s')) (Some l) = Some c
        ∧ hasTestToSkipLevels (S fuel) (<[l' := o]> (objects s')) (Some l)
          = Some t.
Proof.
  intros Hl.
  destruct (make_shared_spec (BasicStudent c t) s) as (l' & Hm & Hnew & Hat & Hfr).
  destruct (Hfr l) as [Hne Hkept]; [eauto|]. rewrite Hl in Hkept.
  exists l', (set_objects (insert l' (BasicStudent c t)) s).
  split_and!.
  - simpl. rewrite Hl. exact Hm.
  - done.
  - done.
  - by apply getCategories_basic with t.
  - by apply hasTestToSkipLevels_basic with c.
  - by apply getCategories_basic with t.
  - by apply hasTestToSkipLevels_basic with c.
  - intros o. split.
    + apply getCategories_basic with t. by rewrite lookup_insert_ne.
    + apply hasTestToSkipLevels_basic with c. by rewrite lookup_insert_ne.
Qed.

Lemma clone_independent_witness :
  objects chain_state !! 1%positive
    = Some (BasicStudent ["Math"; "Physics"]%string true)
  ∧ ∃ l' s',
      clone 1 (Some 1%positive) chain_state = Some (Some l', s')
      ∧ l' ≠ 1%positive
      ∧ objects chain_state !! l' = None
      ∧ getCategories 1 (objects s') (Some l') = Some ["Math"; "Physics"]%string
      ∧ hasTestToSkipLevels 1 (objects s') (Some l') = Some true
      ∧ getCategories 1 (objects s') (Some 1%positive)
        = Some ["Math"; "Physics"]%string
      ∧ hasTestToSkipLevels 1 (objects s') (Some 1%positive) = Some true
      ∧ ∀ o,
          getCategories 1 (<[l' := o]> (objects s')) (Some 1%positive)
            = Some ["Math"; "Physics"]%string
          ∧ hasTestToSkipLevels 1 (<[l' := o]> (objects s')) (Some 1%positive)
            = Some true.
Proof.
  split; [reflexivity|].
  apply (clone_independent chain_state 1 ["Math"; "Physics"]%string true 0).
  reflexivity.
Defined.

Lemma setCategories_spec s B bs cats :
  builders s !! B = Some bs →
  setCategories B cats s
  = Some (B, set_builders
               (insert B {| categories := cats;
                            testToSkipLevels := testToSkipLevels bs |}) s).
Proof. intros HB. unfold setCategories. rewrite HB. reflexivity. Qed.

Lemma build_spec s B bs :
  builders s !! B = Some bs →
  ∃ l, build B s
       = Some (Some l,
               set_objects
                 (insert l (BasicStudent (categories bs) (testToSkipLevels bs))) s)
       ∧ objects s !! l = None.
Proof.
  intros HB. unfold build. rewrite HB. simpl.
  destruct (make_shared_spec (BasicStudent (categories bs) (testToSkipLevels bs)) s)
    as (l & Hm & Hnew & _).
  eauto.
Qed.

(** What one builder call does, seen from the caller. *)
Lemma setCategories_reads s B bs cats :
  builders s !! B = Some bs →
  ∃ s', setCategories B cats s = Some (B, s')
        ∧ objects s' = objects s
        ∧ builders s' !! B
          = Some {| categories := cats; testToSkipLevels := testToSkipLevels bs |}.
Proof.
  intros HB. eexists. split; [by apply setCategories_spec|].
  split; [done|]. simpl. by rewrite lookup_insert_eq.
Qed.

Lemma setTestToSkipLevels_reads s B bs t :
  builders s !! B = Some bs →
  ∃ s', setTestToSkipLevels B t s = Some (B, s')
        ∧ objects s' = objects s
        ∧ builders s' !! B
          = Some {| categories := categories bs; testToSkipLevels := t |}.
Proof.
  intros HB. unfold setTestToSkipLevels. rewrite HB. simpl.
  eexists. split; [done|]. split; [done|]. simpl. by rewrite lookup_insert_eq.
Qed.

Lemma build_reads s B bs :
  builders s !! B = Some bs →
  ∃ l s', build B s = Some (Some l, s')
          ∧ objects s !! l = None
          ∧ builders s' = builders s
          ∧ objects s' !! l
            = Some (BasicStudent (categories bs) (testToSkipLevels bs))
          ∧ ∀ l' o, objects s !! l' = Some o →
              l' ≠ l ∧ objects s' !! l' = Some o.
Proof.
  intros HB. destruct (build_spec s B bs HB) as (l & Hb & Hnew).
  exists l, (set_objects
               (insert l (BasicStudent (categories bs) (testToSkipLevels bs))) s).
  split_and!; try done.
  - simpl. by rewrite lookup_insert_eq.
  - intros l' o Hl'. assert (l' ≠ l) by congruence.
    split; [done|]. simpl. by rewrite lookup_insert_ne.
Qed.

(** C7. A builder on which no setter was called builds a student with no
    categories and flag [false].  On any builder [B],
    [B.setCategories({"Math"}).build()] followed by
    [B.setCategories({"Physics"}).build()] returns pointers to two
    different objects, the first with categories ["Math"], also after the
    second pair of calls, the second with ["Physics"]; each setter
    ([setCategories] and [setTestToSkipLevels]) returns [B] itself.
    [build] resets nothing: it leaves every builder as it was, so the
    flag of both students is the one [B] held all along, a further
    [build()] right after either one builds the same categories and flag
    again in one more object, and after a [setTestToSkipLevels(t)] the
    next student has the categories kept from before and the flag [t].
    None of the later calls changes what an earlier student reads. *)
Theorem builder_default_and_reuse :
  (∀ s fuel, ∃ b s1 l s2,
      new_BasicStudentBuilder s = Some (b, s1)
      ∧ build b s1 = Some (Some l, s2)
      ∧ builders s2 = builders s1
      ∧ builders s2 !! b = Some BasicStudentBuilder_default
      ∧ getCategories (S fuel) (objects s2) (Some l) = Some []
      ∧ hasTestToSkipLevels (S fuel) (objects s2) (Some l) = Some false)
  ∧ (∀ s B bs fuel,
      builders s !! B = Some bs →
      ∃ s1 l1 s2 s3 l2 s4,
        setCategories B ["Math"%string] s = Some (B, s1)
        ∧ build B s1 = Some (Some l1, s2)
        ∧ setCategories B ["Physics"%string] s2 = Some (B, s3)
        ∧ build B s3 = Some (Some l2, s4)
        ∧ l1 ≠ l2
        ∧ getCategories (S fuel) (objects s2) (Some l1) = Some ["Math"%string]
        ∧ getCategories (S fuel) (objects s4) (Some l1) = Some ["Math"%string]
        ∧ getCategories (S fuel) (objects s4) (Some l2) = Some ["Physics"%string]
        ∧ hasTestToSkipLevels (S fuel) (objects s4) (Some l1)
          = Some (testToSkipLevels bs)
        ∧ hasTestToSkipLevels (S fuel) (objects s4) (Some l2)
          = Some (testToSkipLevels bs)
        ∧ builders s2 = builders s1
        ∧ builders s4 = builders s3
        ∧ builders s2 !! B
          = Some {| categories := ["Math"%string];
                    testToSkipLevels := testToSkipLevels bs |}
        ∧ builders s4 !! B
          = Some {| categories := ["Physics"%string];
                    testToSkipLevels := testToSkipLevels bs |}
        ∧ (∃ l1' s2',
             build B s2 = Some (Some l1', s2')
             ∧ l1' ≠ l1
             ∧ getCategories (S fuel) (objects s2') (Some l1')
               = Some ["Math"%string]
             ∧ hasTestToSkipLevels (S fuel) (objects s2') (Some l1')
               = Some (testToSkipLevels bs)
             ∧ getCategories (S fuel) (objects s2') (Some l1)
               = Some ["Math"%string])
        ∧ (∃ l3 s5,
             build B s4 = Some (Some l3, s5)
             ∧ l3 ≠ l1 ∧ l3 ≠ l2
             ∧ builders s5 = builders s4
             ∧ getCategories (S fuel) (objects s5) (Some l3)
               = Some ["Physics"%string]
             ∧ hasTestToSkipLevels (S fuel) (objects s5) (Some l3)
               = Some (testToSkipLevels bs)
             ∧ getCategories (S fuel) (objects s5) (Some l1)
               = Some ["Math"%string]
             ∧ getCategories (S fuel) (objects s5) (Some l2)
               = Some ["Physics"%string])
        ∧ (∀ t, ∃ s6 l4 s7,
             setTestToSkipLevels B t s4 = Some (B, s6)
             ∧ build B s6 = Some (Some l4, s7)
             ∧ l4 ≠ l1 ∧ l4 ≠ l2
             ∧ getCategories (S fuel) (objects s7) (Some l4)
               = Some ["Physics"%string]
             ∧ hasTestToSkipLevels (S fuel) (objects s7) (Some l4) = Some t
             ∧ getCategories (S fuel) (objects s7) (Some l1)
               = Some ["Math"%string]
             ∧ hasTestToSkipLevels (S fuel) (objects s7) (Some l1)
               = Some (testToSkipLevels bs)
             ∧ getCategories (S fuel) (objects s7) (Some l2)
               = Some ["Physics"%string]
             ∧ hasTestToSkipLevels (S fuel) (objects s7) (Some l2)
               = Some (testToSkipLevels bs))).
Proof.
  split.
  - intros s fuel.
    set (b := fresh (dom (builders s))).
    set (s1 := set_builders (insert b BasicStudentBuilder_default) s).
    assert (Hb : builders s1 !! b = Some BasicStudentBuilder_default).
    { subst s1. simpl. by rewrite lookup_insert_eq. }
    destruct (build_reads s1 b _ Hb) as (l & s2 & Hbuild & _ & Hbs & Hl & _).
    exists b, s1, l, s2. split_and!; [done|exact Hbuild|done|by rewrite Hbs|..].
    + by apply getCategories_basic with false.
    + by apply hasTestToSkipLevels_basic with [].
  - intros s B bs fuel HB.
    set (tb := testToSkipLevels bs).
    destruct (setCategories_reads s B bs ["Math"%string] HB)
      as (s1 & Hset1 & Ho1 & HB1).
    destruct (build_reads s1 B _ HB1) as (l1 & s2 & Hbuild1 & _ & Hbs2 & Hl1 & _).
    simpl in Hl1.
    assert (HB2 : builders s2 !! B
                  = Some {| categories := ["Math"%string]; testToSkipLevels := tb |}).
    { by rewrite Hbs2. }
    destruct (setCategories_reads s2 B _ ["Physics"%string] HB2)
      as (s3 & Hset3 & Ho3 & HB3).
    simpl in HB3.
    assert (Hl1_3 : objects s3 !! l1 = Some (BasicStudent ["Math"%string] tb)).
    { by rewrite Ho3. }
    destruct (build_reads s3 B _ HB3) as (l2 & s4 & Hbuild2 & _ & Hbs4 & Hl2 & Hk4).
    simpl in Hl2.
    destruct (Hk4 _ _ Hl1_3) as [Hne12 Hl1_4].
    assert (HB4 : builders s4 !! B
                  = Some {| categories := ["Physics"%string];
                            testToSkipLevels := tb |}).
    { by rewrite Hbs4. }
    exists s1, l1, s2, s3, l2, s4. split_and!; try done.
    + by apply getCategories_basic with tb.
    + by apply getCategories_basic with tb.
    + by apply getCategories_basic with tb.
    + by apply hasTestToSkipLevels_basic with ["Math"%string].
    + by apply hasTestToSkipLevels_basic with ["Physics"%string].
    + destruct (build_reads s2 B _ HB2)
        as (l1' & s2' & Hbuild & _ & _ & Hl1' & Hk).
      simpl in Hl1'. destruct (Hk _ _ Hl1) as [Hne Hl1k].
      exists l1', s2'. split_and!; try done.
      * by apply getCategories_basic with tb.
      * by apply hasTestToSkipLevels_basic with ["Math"%string].
      * by apply getCategories_basic with tb.
    + destruct (build_reads s4 B _ HB4)
        as (l3 & s5 & Hbuild & _ & Hbs5 & Hl3 & Hk).
      simpl in Hl3.
      destruct (Hk _ _ Hl1_4) as [Hne1 Hl1_5].
      destruct (Hk _ _ Hl2) as [Hne2 Hl2_5].
      exists l3, s5. split_and!; try done.
      * by apply getCategories_basic with tb.
      * by apply hasTestToSkipLevels_basic with ["Physics"%string].
      * by apply getCategories_basic with tb.
      * by apply getCategories_basic with tb.
    + intros t.
      destruct (setTestToSkipLevels_reads s4 B _ t HB4) as (s6 & Hset6 & Ho6 & HB6).
      simpl in HB6.
      destruct (build_reads s6 B _ HB6)
        as (l4 & s7 & Hbuild & _ & _ & Hl4 & Hk).
      simpl in Hl4.
      assert (Hl1_6 : objects s6 !! l1 = Some (BasicStudent ["Math"%string] tb)).
      { by rewrite Ho6. }
      assert (Hl2_6 : objects s6 !! l2 = Some (BasicStudent ["Physics"%string] tb)).
      { by rewrite Ho6. }
      destruct (Hk _ _ Hl1_6) as [Hne1 Hl1_7].
      destruct (Hk _ _ Hl2_6) as [Hne2 Hl2_7].
      exists s6, l4, s7. split_and!; try done.
      * by apply getCategories_basic with t.
      * by apply hasTestToSkipLevels_basic with ["Physics"%string].
      * by apply getCategories_basic with tb.
      * by apply hasTestToSkipLevels_basic with ["Math"%string].
      * by apply getCategories_basic with tb.
      * by apply hasTestToSkipLevels_basic with ["Physics"%string].
Qed.

Lemma builder_default_and_reuse_witness :
  builders registry_state !! 1%positive
    = Some {| categories := ["Art"%string]; testToSkipLevels := true |}
  ∧ ∃ s1 l1 s2 s3 l2 s4,
      setCategories 1 ["Math"%string] registry_state = Some (1%positive, s1)
      ∧ build 1 s1 = Some (Some l1, s2)
      ∧ setCategories 1 ["Physics"%string] s2 = Some (1%positive, s3)
      ∧ build 1 s3 = Some (Some l2, s4)
      ∧ l1 ≠ l2
      ∧ getCategories 1 (objects s2) (Some l1) = Some ["Math"%string]
      ∧ getCategories 1 (objects s4) (Some l1) = Some ["Math"%string]
      ∧ getCategories 1 (objects s4) (Some l2) = Some ["Physics"%string]
      ∧ hasTestToSkipLevels 1 (objects s4) (Some l1) = Some true
      ∧ hasTestToSkipLevels 1 (objects s4) (Some l2) = Some true
      ∧ builders s2 = builders s1
      ∧ builders s4 = builders s3
      ∧ builders s2 !! 1%positive
        = Some {| categories := ["Math"%string]; testToSkipLevels := true |}
      ∧ builders s4 !! 1%positive
        = Some {| categories := ["Physics"%string]; testToSkipLevels := true |}
      ∧ (∃ l1' s2',
           build 1 s2 = Some (Some l1', s2')
           ∧ l1' ≠ l1
           ∧ getCategories 1 (objects s2') (Some l1') = Some ["Math"%string]
           ∧ hasTestToSkipLevels 1 (objects s2') (Some l1') = Some true
           ∧ getCategories 1 (objects s2') (Some l1) = Some ["Math"%string])
      ∧ (∃ l3 s5,
           build 1 s4 = Some (Some l3, s5)
           ∧ l3 ≠ l1 ∧ l3 ≠ l2
           ∧ builders s5 = builders s4
           ∧ getCategories 1 (objects s5) (Some l3) = Some ["Physics"%string]
           ∧ hasTestToSkipLevels 1 (objects s5) (Some l3) = Some true
           ∧ getCategories 1 (objects s5) (Some l1) = Some ["Math"%string]
           ∧ getCategories 1 (objects s5) (Some l2) = Some ["Physics"%string])
      ∧ (∀ t, ∃ s6 l4 s7,
           setTestToSkipLevels 1 t s4 = Some (1%positive, s6)
           ∧ build 1 s6 = Some (Some l4, s7)
           ∧ l4 ≠ l1 ∧ l4 ≠ l2
           ∧ getCategories 1 (objects s7) (Some l4) = Some ["Physics"%string]
           ∧ hasTestToSkipLevels 1 (objects s7) (Some l4) = Some t
           ∧ getCategories 1 (objects s7) (Some l1) = Some ["Math"%string]
           ∧ hasTestToSkipLevels 1 (objects s7) (Some l1) = Some true
           ∧ getCategories 1 (objects s7) (Some l2) = Some ["Physics"%string]
           ∧ hasTestToSkipLevels 1 (objects s7) (Some l2) = Some true).
Proof.
  split; [reflexivity|].
  apply (proj2 builder_default_and_reuse registry_state 1%positive
           {| categories := ["Art"%string]; testToSkipLevels := true |} 0).
  reflexivity.
Defined.

(** ** Further properties of the student classes *)

Lemma delegates_weaken (h h' : gmap loc Student) p n li :
  h ⊆ h' → delegates h p n li → delegates h' p n li.
Proof.
  intros Hsub. induction 1 as [l c t Hl|l b n li Hl _ IH|l b n li Hl _ IH].
  - eapply delegates_basic, lookup_weaken; eauto.
  - eapply delegates_decorator; [eapply lookup_weaken; eauto|done].
  - eapply delegates_tutoring; [eapply lookup_weaken; eauto|done].
Qed.

Lemma make_shared_subseteq o s p s' :
  make_shared o s = Some (p, s') → objects s ⊆ objects s'.
Proof.
  unfold make_shared. intros [= <- <-]. simpl.
  apply insert_subseteq, not_elem_of_dom, is_fresh.
Qed.

(** Whatever [clone] returns was made by one [make_shared] of a
    [BasicStudent]. *)
Lemma clone_result fuel : ∀ p s r s',
  clone fuel p s = Some (r, s') →
  ∃ c t, make_shared (BasicStudent c t) s = Some (r, s').
Proof.
  induction fuel as [|fuel IH]; intros p s r s' Hc; [done|].
  simpl in Hc. destruct p as [l|]; [|done]. simpl in Hc.
  destruct (objects s !! l) as [[c t|b|b]|]; simpl in Hc; eauto; done.
Qed.

(** X1. Through a chain of decorators of any depth and any mix of the
    two classes, [getCategories()] and [hasTestToSkipLevels()] return the
    members of the innermost [BasicStudent]. *)
Theorem chain_reads_innermost (h : gmap loc Student) p n li c t fuel :
  delegates h p n li →
  h !! li = Some (BasicStudent c t) →
  n < fuel →
  getCategories fuel h p = Some c
  ∧ hasTestToSkipLevels fuel h p = Some t.
Proof.
  intros Hd Hli Hlt. split.
  - eapply getCategories_delegates; eauto.
  - eapply hasTestToSkipLevels_delegates; eauto.
Qed.

Lemma chain_reads_innermost_witness :
  getCategories 4 chain_objects (Some 4%positive) = Some ["Math"; "Physics"]%string
  ∧ hasTestToSkipLevels 4 chain_objects (Some 4%positive) = Some true.
Proof.
  apply (chain_reads_innermost chain_objects (Some 4%positive) 3 1).
  - apply (delegates_tutoring _ 4 (Some 3%positive)); [reflexivity|].
    apply (delegates_decorator _ 3 (Some 2%positive)); [reflexivity|].
    apply (delegates_tutoring _ 2 (Some 1%positive)); [reflexivity|].
    apply (delegates_basic _ 1 ["Math"; "Physics"]%string true). reflexivity.
  - reflexivity.
  - lia.
Defined.

(** X2. [canTakeCourse] answers [true] for every student that is a
    [BasicStudent] under any number of decorators, and for every course:
    no class of the file ever answers [false]. *)
Theorem canTakeCourse_always_true (h : gmap loc Student) p n li course fuel :
  delegates h p n li →
  n < fuel →
  canTakeCourse fuel h p course = Some true.
Proof. intros Hd Hlt. eapply canTakeCourse_delegates; eauto. Qed.

Lemma canTakeCourse_always_true_witness :
  canTakeCourse 3 chain_objects (Some 3%positive) "Advanced Quantum Mechanics"%string
  = Some true.
Proof.
  apply (canTakeCourse_always_true chain_objects (Some 3%positive) 2 1).
  - apply (delegates_decorator _ 3 (Some 2%positive)); [reflexivity|].
    apply (delegates_tutoring _ 2 (Some 1%positive)); [reflexivity|].
    apply (delegates_basic _ 1 ["Math"; "Physics"]%string true). reflexivity.
  - lia.
Defined.

(** X3. The decorators do not check the pointer they wrap: when the
    [baseStudent] links end in a null pointer, [getCategories()],
    [hasTestToSkipLevels()] and [clone()] dereference it and have no
    defined result, however large the recursion bound. *)
Theorem null_chain_undefined s p fuel :
  ends_in_null (objects s) p →
  getCategories fuel (objects s) p = None
  ∧ hasTestToSkipLevels fuel (objects s) p = None
  ∧ clone fuel p s = None.
Proof.
  intros Hn. revert fuel.
  induction Hn as [|l b Hl _ IH|l b Hl _ IH]; intros [|fuel]; try done;
    simpl; rewrite Hl; simpl; apply IH.
Qed.

Lemma null_chain_undefined_witness :
  getCategories 7 (objects chain_state) (Some 5%positive) = None
  ∧ hasTestToSkipLevels 7 (objects chain_state) (Some 5%positive) = None
  ∧ clone 7 (Some 5%positive) chain_state = None.
Proof.
  apply (null_chain_undefined chain_state (Some 5%positive) 7).
  apply (ends_in_null_tutoring _ 5 None); [reflexivity|].
  apply ends_in_null_here.
Defined.




(** X5. The result of [clone()] is itself a student that can be cloned:
    cloning any chain and then cloning the copy gives two new objects at
    different locations, both [BasicStudent]s with the members of the
    innermost object of the chain, which stays as it was. *)
Theorem clone_of_clone s p n li c t fuel fuel' :
  delegates (objects s) p n li →
  objects s !! li = Some (BasicStudent c t) →
  n < fuel →
  ∃ l1 s1 l2 s2,
    clone fuel p s = Some (Some l1, s1)
    ∧ clone (S fuel') (Some l1) s1 = Some (Some l2, s2)
    ∧ l1 ≠ l2 ∧ l1 ≠ li ∧ l2 ≠ li
    ∧ objects s !! l1 = None ∧ objects s !! l2 = None
    ∧ objects s2 !! l1 = Some (BasicStudent c t)
    ∧ objects s2 !! l2 = Some (BasicStudent c t)
    ∧ objects s2 !! li = Some (BasicStudent c t).
Proof.
  intros Hd Hli Hlt.
  destruct (make_shared_spec (BasicStudent c t) s) as (l1 & Hm1 & Hnew1 & Hat1 & Hfr1).
  set (s1 := set_objects (insert l1 (BasicStudent c t)) s) in *.
  destruct (make_shared_spec (BasicStudent c t) s1) as (l2 & Hm2 & Hnew2 & Hat2 & Hfr2).
  set (s2 := set_objects (insert l2 (BasicStudent c t)) s1) in *.
  destruct (Hfr1 li) as [Hne1 Hk1]; [eauto|].
  destruct (Hfr2 l1) as [Hne21 Hk21]; [eauto|].
  destruct (Hfr2 li) as [Hne2 Hk2]; [rewrite Hk1; eauto|].
  exists l1, s1, l2, s2. split_and!; try done.
  - rewrite (clone_delegates s p n li c t fuel Hd Hli Hlt). exact Hm1.
  - rewrite (clone_delegates s1 (Some l1) 0 l1 c t (S fuel')
               (delegates_basic _ _ _ _ Hat1) Hat1) by lia.
    exact Hm2.
  - destruct (objects s !! l2) as [o|] eqn:Ho; [|done].
    assert (l2 ≠ l1) by done.
    assert (objects s1 !! l2 = Some o) as Hc; [|congruence].
    subst s1. simpl. by rewrite lookup_insert_ne.
  - congruence.
  - congruence.
Qed.

Lemma clone_of_clone_witness :
  ∃ l1 s1 l2 s2,
    clone 4 (Some 4%positive) chain_state = Some (Some l1, s1)
    ∧ clone 1 (Some l1) s1 = Some (Some l2, s2)
    ∧ l1 ≠ l2 ∧ l1 ≠ 1%positive ∧ l2 ≠ 1%positive
    ∧ objects chain_state !! l1 = None ∧ objects chain_state !! l2 = None
    ∧ objects s2 !! l1 = Some (BasicStudent ["Math"; "Physics"]%string true)
    ∧ objects s2 !! l2 = Some (BasicStudent ["Math"; "Physics"]%string true)
    ∧ objects s2 !! 1%positive = Some (BasicStudent ["Math"; "Physics"]%string true).
Proof.
  apply (clone_of_clone chain_state (Some 4%positive) 3 1
           ["Math"; "Physics"]%string true 4 0).
  - apply (delegates_tutoring _ 4 (Some 3%positive)); [reflexivity|].
    apply (delegates_decorator _ 3 (Some 2%positive)); [reflexivity|].
    apply (delegates_tutoring _ 2 (Some 1%positive)); [reflexivity|].
    apply (delegates_basic _ 1 ["Math"; "Physics"]%string true). reflexivity.
  - reflexivity.
  - lia.
Defined.

(** ** What a call can change *)

Lemma make_shared_frame o s p s' :
  make_shared o s = Some (p, s') →
  objects s ⊆ objects s' ∧ vectors s' = vectors s ∧ instance s' = instance s.
Proof.
  intros Hm. split; [by eapply make_shared_subseteq|].
  unfold make_shared in Hm. by injection Hm as <- <-.
Qed.

Lemma other_call_effect c s s' :
  registry_call c = false →
  run_call c s = Some (tt, s') →
  objects s ⊆ objects s' ∧ vectors s' = vectors s ∧ instance s' = instance s.
Proof.
  destruct c as [cats t|b|b|fuel p| |B cats|B t|B|p|]; simpl; intros Hr Hc;
    try discriminate Hr; unfold mbind, M_bind in Hc.
  - destruct (createStudent cats t s) as [[r s1]|] eqn:E; [|done].
    injection Hc as <-. by eapply make_shared_frame.
  - destruct (new_StudentDecorator b s) as [[r s1]|] eqn:E; [|done].
    injection Hc as <-. by eapply make_shared_frame.
  - destruct (new_TutoringSupportDecorator b s) as [[r s1]|] eqn:E; [|done].
    injection Hc as <-. by eapply make_shared_frame.
  - destruct (clone fuel p s) as [[r s1]|] eqn:E; [|done].
    injection Hc as <-. destruct (clone_result _ _ _ _ _ E) as (c & t & Hm).
    by eapply make_shared_frame.
  - unfold new_BasicStudentBuilder in Hc. by injection Hc as <-.
  - unfold setCategories in Hc. destruct (builders s !! B); [|done].
    by injection Hc as <-.
  - unfold setTestToSkipLevels in Hc. destruct (builders s !! B); [|done].
    by injection Hc as <-.
  - destruct (build B s) as [[r s1]|] eqn:E; [|done].
    injection Hc as <-. unfold build in E.
    destruct (builders s !! B); [|done]. by eapply make_shared_frame.
Qed.

Lemma registry_call_effect c s s' :
  registry_call c = true →
  run_call c s = Some (tt, s') →
  objects s' = objects s ∧ ∀ u, instance s = Some u → instance s' = Some u.
Proof.
  destruct c as [cats t|b|b|fuel p| |B cats|B t|B|p|]; simpl; intros Hr Hc;
    try discriminate Hr; unfold mbind, M_bind in Hc.
  - unfold register, mbind, M_bind, getInstance, addStudent in Hc.
    destruct (instance s) as [u|] eqn:Hi; simpl in Hc.
    + destruct (vectors s !! u); [|done]. injection Hc as <-.
      simpl. split; [done|]. intros u' [= <-]. done.
    + rewrite lookup_insert_eq in Hc. by injection Hc as <-.
  - destruct (listStudents s) as [[r s1]|] eqn:E; [|done].
    injection Hc as <-.
    unfold listStudents, mbind, M_bind, getInstance, getStudents in E.
    destruct (instance s) as [u|] eqn:Hi; simpl in E.
    + destruct (vectors s !! u); [|done]. simpl in E.
      injection E as <- <-. simpl. split; [done|]. intros u' [= <-]. done.
    + rewrite lookup_insert_eq in E. simpl in E. by injection E as <- <-.
Qed.

Lemma run_call_effect c s s' :
  run_call c s = Some (tt, s') →
  objects s ⊆ objects s'
  ∧ (∀ u, instance s = Some u → instance s' = Some u)
  ∧ (∀ x, students_now s = Some x →
       students_now s' = Some (x ++ registered [c])
       ∧ ∀ w, foreign_vector s w →
           vectors s' !! w = vectors s !! w ∧ foreign_vector s' w).
Proof.
  intros Hc. destruct (registry_call c) eqn:Hr.
  - destruct (registry_call_effect c s s' Hr Hc) as [Ho Hi].
    split_and!; [by rewrite Ho|done|]. intros x Hx.
    destruct c as [cats t|b|b|fuel p| |B cats|B t|B|p|]; try discriminate Hr;
      simpl in Hc |- *.
    + destruct (register_spec s x p Hx) as (s0 & Hreg & Hx0 & _ & _ & Hfr).
      rewrite Hreg in Hc. injection Hc as <-. done.
    + destruct (listStudents_spec s x Hx)
        as (v & s0 & Hl & _ & _ & Hx0 & _ & _ & _ & Hfr).
      unfold mbind, M_bind in Hc. rewrite Hl in Hc. injection Hc as <-.
      by rewrite app_nil_r.
  - destruct (other_call_effect c s s' Hr Hc) as (Ho & Hv & Hi).
    split_and!; [done|congruence|]. intros x Hx.
    assert (registered [c] = []) as ->.
    { by destruct c. }
    rewrite app_nil_r. unfold students_now, foreign_vector.
    rewrite Hv, Hi. done.
Qed.

Lemma run_calls_effect cs : ∀ s s',
  run_calls cs s = Some (tt, s') →
  objects s ⊆ objects s'
  ∧ (∀ u, instance s = Some u → instance s' = Some u)
  ∧ (∀ x, students_now s = Some x →
       students_now s' = Some (x ++ registered cs)
       ∧ ∀ w, foreign_vector s w →
           vectors s' !! w = vectors s !! w ∧ foreign_vector s' w).
Proof.
  induction cs as [|c cs IH]; intros s s' Hr.
  - injection Hr as <-. split_and!; try done.
    intros x Hx. simpl. by rewrite app_nil_r.
  - simpl in Hr. unfold mbind, M_bind in Hr.
    destruct (run_call c s) as [[[] s0]|] eqn:Hc; [|done].
    destruct (run_call_effect c s s0 Hc) as (Ho0 & Hi0 & Hx0).
    destruct (IH s0 s' Hr) as (Ho' & Hi' & Hx').
    split_and!.
    + by etrans.
    + auto.
    + intros x Hx. destruct (Hx0 x Hx) as [Hs0 Hf0].
      destruct (Hx' _ Hs0) as [Hs' Hf']. split.
      * rewrite Hs'. f_equal. rewrite <- app_assoc. f_equal.
        simpl. by rewrite app_nil_r.
      * intros w Hw. destruct (Hf0 w Hw) as [E0 F0].
        destruct (Hf' w F0) as [E' F']. split; [congruence|done].
Qed.

(** X6. No member function of the file modifies or removes a student
    object once it exists: after any sequence of calls that runs through,
    every object is where it was with the members it had, so a student
    (at any depth of decoration) reads the same categories, flag and
    course answer as before. *)
Theorem students_never_modified cs s s' p n li fuel course :
  run_calls cs s = Some (tt, s') →
  delegates (objects s) p n li →
  n < fuel →
  (∀ l o, objects s !! l = Some o → objects s' !! l = Some o)
  ∧ delegates (objects s') p n li
  ∧ getCategories fuel (objects s') p = getCategories fuel (objects s) p
  ∧ hasTestToSkipLevels fuel (objects s') p
    = hasTestToSkipLevels fuel (objects s) p
  ∧ canTakeCourse fuel (objects s') p course
    = canTakeCourse fuel (objects s) p course
  ∧ is_Some (getCategories fuel (objects s) p).
Proof.
  intros Hr Hd Hlt.
  destruct (run_calls_effect cs s s' Hr) as (Hsub & _ & _).
  destruct (delegates_innermost _ _ _ _ Hd) as (c & t & Hli).
  pose proof (delegates_weaken _ _ _ _ _ Hsub Hd) as Hd'.
  pose proof (lookup_weaken _ _ _ _ Hli Hsub) as Hli'.
  rewrite (getCategories_delegates _ _ _ _ c t fuel Hd' Hli' Hlt).
  rewrite (getCategories_delegates _ _ _ _ c t fuel Hd Hli Hlt).
  rewrite (hasTestToSkipLevels_delegates _ _ _ _ c t fuel Hd' Hli' Hlt).
  rewrite (hasTestToSkipLevels_delegates _ _ _ _ c t fuel Hd Hli Hlt).
  rewrite (canTakeCourse_delegates _ _ _ _ course fuel Hd' Hlt).
  rewrite (canTakeCourse_delegates _ _ _ _ course fuel Hd Hlt).
  split_and!; eauto.
  intros l o Hl. by eapply lookup_weaken.
Qed.

Lemma students_never_modified_witness :
  ∃ s',
    run_calls sample_calls registry_state = Some (tt, s')
    ∧ (∀ l o, objects registry_state !! l = Some o → objects s' !! l = Some o)
    ∧ delegates (objects s') (Some 3%positive) 2 1
    ∧ getCategories 3 (objects s') (Some 3%positive)
      = getCategories 3 (objects registry_state) (Some 3%positive)
    ∧ hasTestToSkipLevels 3 (objects s') (Some 3%positive)
      = hasTestToSkipLevels 3 (objects registry_state) (Some 3%positive)
    ∧ canTakeCourse 3 (objects s') (Some 3%positive) "Algebra"%string
      = canTakeCourse 3 (objects registry_state) (Some 3%positive) "Algebra"%string
    ∧ is_Some (getCategories 3 (objects registry_state) (Some 3%positive)).
Proof.
  eexists. split; [vm_compute; reflexivity|].
  eapply (students_never_modified sample_calls registry_state _ (Some 3%positive) 2 1 3).
  - vm_compute. reflexivity.
  - apply (delegates_decorator _ 3 (Some 2%positive)); [reflexivity|].
    apply (delegates_tutoring _ 2 (Some 1%positive)); [reflexivity|].
    apply (delegates_basic _ 1 ["Math"; "Physics"]%string true). reflexivity.
  - lia.
Defined.

(** X7. Of the functions the file defines ([createStudent], the two
    decorator constructors, [clone], the builder's functions,
    [addStudent] and [getStudents]; the copy assignment the compiler
    generates for [University] is not one of them), only [addStudent]
    changes the registry: after any sequence of calls of these functions
    that runs through, the collection is the one before followed by the
    students registered, in order, and every vector returned earlier by
    [getStudents()] has its elements unchanged. *)
Theorem registry_changed_only_by_addStudent cs s s' x :
  students_now s = Some x →
  run_calls cs s = Some (tt, s') →
  students_now s' = Some (x ++ registered cs)
  ∧ ∀ w, foreign_vector s w → vectors s' !! w = vectors s !! w.
Proof.
  intros Hx Hr.
  destruct (run_calls_effect cs s s' Hr) as (_ & _ & Hreg).
  destruct (Hreg x Hx) as [Hx' Hfr]. split; [done|].
  intros w Hw. by destruct (Hfr w Hw).
Qed.

Lemma registry_changed_only_by_addStudent_witness :
  ∃ s',
    run_calls sample_calls snapshot_state = Some (tt, s')
    ∧ students_now s'
      = Some ([Some 2%positive; Some 4%positive] ++ [Some 2%positive; None])
    ∧ foreign_vector snapshot_state 2
    ∧ vectors snapshot_state !! 2%positive = Some [Some 2%positive]
    ∧ vectors s' !! 2%positive = vectors snapshot_state !! 2%positive.
Proof.
  assert (Hf : foreign_vector snapshot_state 2).
  { split; [by eexists|discriminate]. }
  eexists. split; [vm_compute; reflexivity|].
  split; [|split; [exact Hf|split; [reflexivity|]]].
  - refine (proj1 (registry_changed_only_by_addStudent sample_calls snapshot_state _
                     [Some 2%positive; Some 4%positive] _ _)).
    + reflexivity.
    + vm_compute. reflexivity.
  - refine (proj2 (registry_changed_only_by_addStudent sample_calls snapshot_state _
                     [Some 2%positive; Some 4%positive] _ _) 2%positive Hf).
    + reflexivity.
    + vm_compute. reflexivity.
Defined.

(** X8. [getInstance()] always refers to the same [University]: a second
    call returns the reference of the first and changes nothing, and so
    does a call after any sequence of calls of any member functions.
    When the first call constructs the object, its collection is empty
    and lies at a location no vector used before. *)
Theorem getInstance_same_object s u s1 cs s2 :
  getInstance s = Some (u, s1) →
  run_calls cs s1 = Some (tt, s2) →
  getInstance s1 = Some (u, s1)
  ∧ getInstance s2 = Some (u, s2)
  ∧ (instance s = None → vectors s !! u = None ∧ vectors s1 !! u = Some [])
  ∧ (instance s ≠ None → s1 = s).
Proof.
  intros Hg Hr.
  assert (Hi1 : instance s1 = Some u).
  { unfold getInstance in Hg. destruct (instance s) as [u0|] eqn:Hi.
    - by injection Hg as <- <-.
    - by injection Hg as <- <-. }
  destruct (run_calls_effect cs s1 s2 Hr) as (_ & Hi & _).
  specialize (Hi u Hi1).
  split_and!.
  - unfold getInstance. by rewrite Hi1.
  - unfold getInstance. by rewrite Hi.
  - intros Hnone. unfold getInstance in Hg. rewrite Hnone in Hg.
    injection Hg as <- <-. split.
    + apply not_elem_of_dom, is_fresh.
    + simpl. by rewrite lookup_insert_eq.
  - intros Hsome. unfold getInstance in Hg.
    destruct (instance s); [|done]. by injection Hg as <- <-.
Qed.

Lemma getInstance_same_object_witness :
  ∃ u s1 s2,
    getInstance chain_state = Some (u, s1)
    ∧ run_calls sample_calls s1 = Some (tt, s2)
    ∧ getInstance s1 = Some (u, s1)
    ∧ getInstance s2 = Some (u, s2)
    ∧ (instance chain_state = None →
         vectors chain_state !! u = None ∧ vectors s1 !! u = Some [])
    ∧ (instance chain_state ≠ None → s1 = chain_state).
Proof.
  eexists _, _, _. split; [vm_compute; reflexivity|].
  split; [vm_compute; reflexivity|].
  eapply (getInstance_same_object chain_state _ _ sample_calls).
  - vm_compute. reflexivity.
  - vm_compute. reflexivity.
Defined.

(** ** Further properties of the builder, the registry and [main] *)

(** X9. The two setters of a builder are independent: calling
    [setCategories(c)] and [setTestToSkipLevels(t)] in either order
    leaves the builder in the same state, holding [c] and [t] whatever it
    held before; no other builder and no student object is touched, and
    [build()] then makes the student the factory makes from [c] and [t]. *)
Theorem builder_setters_compose s B bs (c : list string) (t : bool) :
  builders s !! B = Some bs →
  ∃ s1 s1' s2 l s3,
    setCategories B c s = Some (B, s1)
    ∧ setTestToSkipLevels B t s1 = Some (B, s2)
    ∧ setTestToSkipLevels B t s = Some (B, s1')
    ∧ setCategories B c s1' = Some (B, s2)
    ∧ builders s2 !! B = Some {| categories := c; testToSkipLevels := t |}
    ∧ (∀ B', B' ≠ B → builders s2 !! B' = builders s !! B')
    ∧ objects s2 = objects s
    ∧ build B s2 = Some (Some l, s3)
    ∧ build B s2 = createStudent c t s2
    ∧ objects s !! l = None
    ∧ objects s3 !! l = Some (BasicStudent c t).
Proof.
  intros HB.
  set (s1 := set_builders
               (insert B {| categories := c;
                            testToSkipLevels := testToSkipLevels bs |}) s).
  set (s1' := set_builders
                (insert B {| categories := categories bs;
                             testToSkipLevels := t |}) s).
  set (s2 := set_builders
               (insert B {| categories := c; testToSkipLevels := t |}) s).
  assert (H1 : builders s1 !! B
               = Some {| categories := c;
                         testToSkipLevels := testToSkipLevels bs |}).
  { subst s1. simpl. by rewrite lookup_insert_eq. }
  assert (H1' : builders s1' !! B
                = Some {| categories := categories bs; testToSkipLevels := t |}).
  { subst s1'. simpl. by rewrite lookup_insert_eq. }
  assert (H2 : builders s2 !! B
               = Some {| categories := c; testToSkipLevels := t |}).
  { subst s2. simpl. by rewrite lookup_insert_eq. }
  destruct (build_spec s2 B _ H2) as (l & Hbuild & Hnew). simpl in Hbuild.
  exists s1, s1', s2, l, (set_objects (insert l (BasicStudent c t)) s2). split_and!.
  - by apply setCategories_spec.
  - unfold setTestToSkipLevels. rewrite H1. simpl.
    subst s1 s2. unfold set_builders. simpl. by rewrite insert_insert_eq.
  - unfold setTestToSkipLevels. by rewrite HB.
  - unfold setCategories. rewrite H1'. simpl.
    subst s1' s2. unfold set_builders. simpl. by rewrite insert_insert_eq.
  - exact H2.
  - intros B' Hne. subst s2. simpl. by rewrite lookup_insert_ne.
  - done.
  - exact Hbuild.
  - unfold build. by rewrite H2.
  - exact Hnew.
  - simpl. by rewrite lookup_insert_eq.
Qed.

Lemma builder_setters_compose_witness :
  ∃ s1 s1' s2 l s3,
    setCategories 1 ["Math"; "Math"]%string registry_state = Some (1%positive, s1)
    ∧ setTestToSkipLevels 1 false s1 = Some (1%positive, s2)
    ∧ setTestToSkipLevels 1 false registry_state = Some (1%positive, s1')
    ∧ setCategories 1 ["Math"; "Math"]%string s1' = Some (1%positive, s2)
    ∧ builders s2 !! 1%positive
      = Some {| categories := ["Math"; "Math"]%string; testToSkipLevels := false |}
    ∧ (∀ B', B' ≠ 1%positive → builders s2 !! B' = builders registry_state !! B')
    ∧ objects s2 = objects registry_state
    ∧ build 1 s2 = Some (Some l, s3)
    ∧ build 1 s2 = createStudent ["Math"; "Math"]%string false s2
    ∧ objects registry_state !! l = None
    ∧ objects s3 !! l = Some (BasicStudent ["Math"; "Math"]%string false).
Proof.
  apply (builder_setters_compose registry_state 1
           {| categories := ["Art"%string]; testToSkipLevels := true |}
           ["Math"; "Math"]%string false).
  reflexivity.
Defined.

(** X10. [getStudents()] does not change the registry: two calls in a
    row return two different vector objects with the same elements, those
    of the collection, which is afterwards what it was. *)
Theorem getStudents_twice s x :
  students_now s = Some x →
  ∃ v1 s1 v2 s2,
    listStudents s = Some (v1, s1)
    ∧ listStudents s1 = Some (v2, s2)
    ∧ v1 ≠ v2
    ∧ vectors s2 !! v1 = Some x
    ∧ vectors s2 !! v2 = Some x
    ∧ students_now s2 = Some x
    ∧ objects s2 = objects s.
Proof.
  intros Hx.
  destruct (listStudents_spec s x Hx)
    as (v1 & s1 & Hl1 & _ & Hv1 & Hx1 & Hf1 & Ho1 & _ & _).
  destruct (listStudents_spec s1 x Hx1)
    as (v2 & s2 & Hl2 & Hnew2 & Hv2 & Hx2 & _ & Ho2 & _ & Hfr2).
  destruct (Hfr2 v1 Hf1) as [Hk _].
  exists v1, s1, v2, s2. split_and!; try done; congruence.
Qed.

Lemma getStudents_twice_witness :
  ∃ v1 s1 v2 s2,
    listStudents registry_state = Some (v1, s1)
    ∧ listStudents s1 = Some (v2, s2)
    ∧ v1 ≠ v2
    ∧ vectors s2 !! v1 = Some [Some 2%positive; Some 4%positive]
    ∧ vectors s2 !! v2 = Some [Some 2%positive; Some 4%positive]
    ∧ students_now s2 = Some [Some 2%positive; Some 4%positive]
    ∧ objects s2 = objects registry_state.
Proof.
  apply (getStudents_twice registry_state [Some 2%positive; Some 4%positive]).
  reflexivity.
Defined.

(** X11. [main], started with any registry contents, prints the number
    of students registered before plus one, and [true]; it leaves the
    registry with one more element at the end, a pointer to a new
    [TutoringSupportDecorator] over a new [BasicStudent] with categories
    ["Math"; "Physics"] and flag [true], and it changes no object that
    existed. *)
Theorem main_result s x fuel :
  students_now s = Some x →
  ∃ s' l li,
    main (S fuel) s = Some ((length x + 1, true), s')
    ∧ students_now s' = Some (x ++ [Some l])
    ∧ objects s !! l = None ∧ objects s !! li = None
    ∧ objects s' !! l = Some (TutoringSupportDecorator (Some li))
    ∧ objects s' !! li = Some (BasicStudent ["Math"; "Physics"]%string true)
    ∧ objects s ⊆ objects s'.
Proof.
  intros Hx.
  destruct (make_shared_spec (BasicStudent ["Math"; "Physics"]%string true) s)
    as (li & Hm1 & Hnew1 & Hat1 & _).
  set (s1 := set_objects (insert li (BasicStudent ["Math"; "Physics"]%string true)) s)
    in *.
  destruct (make_shared_spec (TutoringSupportDecorator (Some li)) s1)
    as (l & Hm2 & Hnew2 & Hat2 & Hfr2).
  set (s2 := set_objects (insert l (TutoringSupportDecorator (Some li))) s1) in *.
  destruct (Hfr2 li) as [Hne Hk]; [eauto|].
  pose proof (make_shared_subseteq _ _ _ _ Hm1) as Hsub1.
  pose proof (make_shared_subseteq _ _ _ _ Hm2) as Hsub2.
  assert (Hx2 : students_now s2 = Some x) by exact Hx.
  destruct (register_spec s2 x (Some l) Hx2) as (s3 & Hreg & Hx3 & Ho3 & _ & _).
  destruct (listStudents_spec s3 _ Hx3)
    as (v & s4 & Hl & _ & Hv & Hx4 & _ & Ho4 & _ & _).
  assert (Hl4 : objects s4 !! l = Some (TutoringSupportDecorator (Some li))).
  { by rewrite Ho4, Ho3. }
  exists s4, l, li. split_and!.
  - unfold main, mbind, M_bind. unfold createStudent. rewrite Hm1, Hm2, Hreg, Hl.
    unfold elements_of. rewrite Hv. simpl.
    unfold const_call. cbn [canTakeCourse]. simpl. rewrite Hl4. simpl.
    unfold mret, M_ret. rewrite length_app. reflexivity.
  - exact Hx4.
  - destruct (objects s !! l) as [o|] eqn:Ho; [|done].
    rewrite (lookup_weaken _ _ _ _ Ho Hsub1) in Hnew2. done.
  - exact Hnew1.
  - exact Hl4.
  - rewrite Ho4, Ho3, Hk. exact Hat1.
  - rewrite Ho4, Ho3. by etrans.
Qed.

Lemma main_result_witness :
  ∃ s' l li,
    main 1 registry_state = Some ((2 + 1, true), s')
    ∧ students_now s' = Some ([Some 2%positive; Some 4%positive] ++ [Some l])
    ∧ objects registry_state !! l = None ∧ objects registry_state !! li = None
    ∧ objects s' !! l = Some (TutoringSupportDecorator (Some li))
    ∧ objects s' !! li = Some (BasicStudent ["Math"; "Physics"]%string true)
    ∧ objects registry_state ⊆ objects s'.
Proof.
  apply (main_result registry_state [Some 2%positive; Some 4%positive] 0).
  reflexivity.
Defined.
